(** * The articles endpoint of [app/api/articles.ts]

    The file binds five handlers (get by id, list, create, update, delete)
    to a Hono router.  Every handler reads its validated input, awaits one
    or two calls on the [articleRepository] found in the request context and
    shapes the answer with [c.text] or [c.json].

    The handlers are embedded as programs over the repository's six
    operations; a program is run against any implementation of the
    repository interface, threading the repository state and logging the
    calls made. *)

From stdpp Require Import base option strings gmap list fin_maps sets.

Open Scope string_scope.

(** ** Values *)

(** The JSON values that the fields of a record hold. *)
Inductive JsValue : Type :=
  | JNull
  | JBool (b : bool)
  | JNum (n : Z)
  | JStr (s : string).

#[global] Instance JsValue_eq_dec : EqDecision JsValue.
Proof. solve_decision. Defined.

(** A JS object is a finite map from property names to values.  An article,
    the body of a create request and the body of an update request are all
    objects; they differ in the schema that validated them. *)
Abbreviation JsObject := (gmap string JsValue) (only parsing).
Abbreviation Article := (gmap string JsValue) (only parsing).

(** [article.id] and [article.authorId]. *)
Definition id_of (a : Article) : option JsValue := a !! "id".
Definition authorId_of (a : Article) : option JsValue := a !! "authorId".

(** JS truthiness of a string: only the empty string is falsy. *)
Definition truthy (s : string) : bool := bool_decide (s ≠ "").

(** ** Schemas (valibot) *)

Module v.

(** The schemas of the fields of an object. *)
Inductive Schema : Type :=
  | string
  | number
  | boolean
  | optional (s : Schema).

(** [v.object({...})]: the declared entries, in order. *)
Abbreviation ObjectSchema := (list (String.string * Schema)) (only parsing).

(** [v.omit(schema, keys)] drops the listed entries. *)
Definition omit (schema : ObjectSchema) (keys : list String.string)
  : ObjectSchema :=
  filter (λ e, e.1 ∉ keys) schema.

(** [v.partial(schema)] wraps every entry in [v.optional]. *)
Definition partial (schema : ObjectSchema) : ObjectSchema :=
  prod_map id optional <$> schema.

Fixpoint accepts (s : Schema) (x : JsValue) : bool :=
  match s, x with
  | string, JStr _ => true
  | number, JNum _ => true
  | boolean, JBool _ => true
  | optional s', _ => accepts s' x
  | _, _ => false
  end.

Definition is_optional (s : Schema) : bool :=
  match s with optional _ => true | _ => false end.

(** Parsing an input against an object schema.  The output is built from
    the declared entries only: an entry of the input that the schema does
    not declare is not copied.  A declared entry that is missing is an
    issue unless it is optional, in which case the output has no such key. *)
Fixpoint parse (schema : ObjectSchema) (input : JsObject) : option JsObject :=
  match schema with
  | [] => Some ∅
  | (key, s) :: rest =>
      output ← parse rest input;
      match input !! key with
      | Some x => if accepts s x then Some (<[key := x]> output) else None
      | None => if is_optional s then Some output else None
      end
  end.

Definition keys (schema : ObjectSchema) : list String.string := schema.*1.

End v.

(** ** Responses (Hono context) *)

Inductive JsonBody : Type :=
  | ArticleResponse (article : Article)            (* { article } *)
  | ArticlesResponse (articles : list Article)     (* { articles } *)
  | MessageResponse (message : string)             (* { message } *)
  | IssuesResponse.                                (* the validator's issues *)

Inductive Body : Type :=
  | Text (text : string)
  | Json (json : JsonBody).

Record Response : Type := { status : nat; body : Body }.

(** [c.text(text, status)] *)
Definition c_text (text : string) (st : nat) : Response :=
  {| status := st; body := Text text |}.

(** [c.json(object, status?)]: without a status the response is a 200. *)
Definition c_json (object : JsonBody) (st : option nat) : Response :=
  {| status := default 200 st; body := Json object |}.

(** ** Repository calls and handler programs *)

(** The six operations a handler can await on [articleRepository], indexed
    by the type of what the awaited promise resolves to. *)
Inductive RepoE : Type → Type :=
  | FindById (id : string) : RepoE (option Article)
  | FindByAuthorId (authorId : string) : RepoE (list Article)
  | FindAll : RepoE (list Article)
  | Create (data : JsObject) : RepoE Article
  | Update (id : string) (data : JsObject) : RepoE Article
  | Delete (id : string) : RepoE ().

(** An async function body: it returns, or awaits a repository call and
    goes on with its result. *)
Inductive Async (R : Type) : Type :=
  | Return (r : R)
  | Await {X : Type} (e : RepoE X) (k : X → Async R).

Arguments Return {R} r.
Arguments Await {R X} e k.

Fixpoint async_bind {A B : Type} (f : A → Async B) (m : Async A) : Async B :=
  match m with
  | Return a => f a
  | Await e k => Await e (λ x, async_bind f (k x))
  end.

#[global] Instance Async_ret : MRet Async := @Return.
#[global] Instance Async_bind : MBind Async := @async_bind.

Definition await {X : Type} (e : RepoE X) : Async X := Await e Return.

(** One logged call. *)
Definition RepoCall : Type := sigT RepoE.
Definition called {X : Type} (e : RepoE X) : RepoCall := existT X e.

(** ** The repository interface

    [c.var.repositories.articleRepository] is injected by the application;
    the handlers only use these six methods.  The three lookups read the
    state, the three others also change it. *)
Class ArticleRepository (S : Type) : Type := {
  findById : string → S → option Article;
  findByAuthorId : string → S → list Article;
  findAll : S → list Article;
  create : JsObject → S → Article * S;
  update : string → JsObject → S → Article * S;
  delete : string → S → S;
}.

Section Run.
Context {S : Type} `{!ArticleRepository S}.

(** What one call resolves to, and the state it leaves. *)
Definition perform {X : Type} (e : RepoE X) (s : S) : X * S :=
  match e in RepoE X return X * S with
  | FindById id => (findById id s, s)
  | FindByAuthorId authorId => (findByAuthorId authorId s, s)
  | FindAll => (findAll s, s)
  | Create data => create data s
  | Update id data => update id data s
  | Delete id => ((), delete id s)
  end.

(** The result of running a handler: its return value, the repository
    state afterwards and the calls made, in order. *)
Record Ran (R : Type) : Type := { returned : R; state : S; calls : list RepoCall }.
Arguments returned {R} _.
Arguments state {R} _.
Arguments calls {R} _.

Fixpoint run {R : Type} (m : Async R) (s : S) : Ran R :=
  match m with
  | Return r => {| returned := r; state := s; calls := [] |}
  | Await e k =>
      let '(x, s') := perform e s in
      let r := run (k x) s' in
      {| returned := returned r; state := state r; calls := called e :: calls r |}
  end.
End Run.

Arguments Ran S R : clear implicits.
Arguments returned {S R} _.
Arguments state {S R} _.
Arguments calls {S R} _.

(** ** The routes *)

(** [vValidator(target, schema)]: the middleware parses the target with the
    schema; on issues it answers 400 itself and the handler does not run,
    otherwise the handler reads the output through [c.req.valid(target)]. *)
Definition vValidator (schema : v.ObjectSchema) (input : JsObject)
    (handler : JsObject → Async Response) : Async Response :=
  match v.parse schema input with
  | Some output => handler output
  | None => mret (c_json IssuesResponse (Some 400))
  end.

(** The validated query of [GET /]: [{ authorId?: string } | undefined]. *)
Record ArticleQuery : Type := { authorId : option string }.

(** [ArticleQuerySchema = v.optional(v.object({ authorId: v.optional(v.string()) }))] *)
Definition ArticleQuerySchema : v.ObjectSchema :=
  [("authorId", v.optional v.string)].

Definition valid_query (output : JsObject) : option ArticleQuery :=
  Some {| authorId := match output !! "authorId" with
                      | Some (JStr a) => Some a
                      | _ => None
                      end |}.

(** A request to the router: the verb, the path parameter of [/:id] (a path
    segment is always a string, so [ArticleParamSchema] accepts it) and the
    query or JSON body as received. *)
Inductive Request : Type :=
  | GET_id (id : string)
  | GET (query : JsObject)
  | POST (json : JsObject)
  | PUT (id : string) (json : JsObject)
  | DELETE (id : string).

Section Routes.
(** [ArticleSchema] is imported from [../models/article]. *)
Variable ArticleSchema : v.ObjectSchema.

Definition ArticleWithoutIdSchema : v.ObjectSchema :=
  v.omit ArticleSchema ["id"].

(** [.get('/:id', ...)] *)
Definition getArticle (id : string) : Async Response :=
  article ← await (FindById id);
  match article with
  | None => mret (c_text "Article not found" 404)
  | Some article => mret (c_json (ArticleResponse article) (Some 200))
  end.

(** [.get('/', ...)] *)
Definition getArticles (query : option ArticleQuery) : Async Response :=
  let authorId := query ≫= authorId in
  articles ← match authorId with
             | Some authorId =>
                 if truthy authorId then await (FindByAuthorId authorId)
                 else await FindAll
             | None => await FindAll
             end;
  mret (c_json (ArticlesResponse articles) None).

(** [.post('/', ...)] *)
Definition postArticle (data : JsObject) : Async Response :=
  article ← await (Create data);
  mret (c_json (ArticleResponse article) None).

(** [.put('/:id', ...)] *)
Definition putArticle (id : string) (data : JsObject) : Async Response :=
  existingArticle ← await (FindById id);
  match existingArticle with
  | None => mret (c_text "Article not found" 404)
  | Some _ =>
      article ← await (Update id data);
      mret (c_json (ArticleResponse article) None)
  end.

(** [.delete('/:id', ...)] *)
Definition deleteArticle (id : string) : Async Response :=
  existingArticle ← await (FindById id);
  match existingArticle with
  | None => mret (c_text "Article not found" 404)
  | Some _ =>
      _ ← await (Delete id);
      mret (c_json (MessageResponse "Article deleted successfully") None)
  end.

Definition articleRoutes (request : Request) : Async Response :=
  match request with
  | GET_id id => getArticle id
  | GET query =>
      vValidator ArticleQuerySchema query (λ output, getArticles (valid_query output))
  | POST json => vValidator ArticleWithoutIdSchema json postArticle
  | PUT id json =>
      vValidator (v.partial ArticleWithoutIdSchema) json (putArticle id)
  | DELETE id => deleteArticle id
  end.
End Routes.

(** ** Runs and calls *)

(** The run of a handler that found nothing under the id: a 404 with the
    plain text, the state it started from, the lookup as its only call. *)
Definition not_found {S : Type} (s : S) (i : string) : Ran S Response :=
  {| returned := {| status := 404; body := Text "Article not found" |};
     state := s;
     calls := [called (FindById i)] |}.

(** The payload of a call that writes record fields. *)
Definition call_data (c : RepoCall) : option JsObject :=
  match projT2 c with
  | Create data => Some data
  | Update _ data => Some data
  | _ => None
  end.

(** The calls that change the repository: [create], [update], [delete]. *)
Definition is_write (c : RepoCall) : bool :=
  match projT2 c with
  | Create _ | Update _ _ | Delete _ => true
  | _ => false
  end.

(** The author a [findByAuthorId] call filters on. *)
Definition call_author (c : RepoCall) : option string :=
  match projT2 c with
  | FindByAuthorId A => Some A
  | _ => None
  end.

(** ** An in-memory repository *)

Module Memory.

(** Modelled from the spec: the repository object behind
    [c.var.repositories.articleRepository] (its implementation is not in
    [app/api/articles.ts]).  The spec gives its contract: [findById] yields
    the record with that id or nothing, [findByAuthorId] all records whose
    author matches, [findAll] all records, [create] assigns a new identity
    and persists the record, [update] changes only the supplied fields of
    the record with that id, [delete] removes it.  The store keeps the
    records in insertion order and the identities handed out so far. *)
Record Store : Type := { articles : list Article; seen : gset string }.

Definition empty : Store := {| articles := []; seen := ∅ |}.

Definition has_id (i : string) (a : Article) : Prop := id_of a = Some (JStr i).
Definition has_author (A : string) (a : Article) : Prop :=
  authorId_of a = Some (JStr A).

#[global] Instance has_id_dec i a : Decision (has_id i a).
Proof. unfold has_id. apply _. Defined.
#[global] Instance has_author_dec A a : Decision (has_author A a).
Proof. unfold has_author. apply _. Defined.

(** Modelled from the spec: [findById(id) -> Article | absent]. *)
Definition findById (i : string) (s : Store) : option Article :=
  head (filter (has_id i) (articles s)).

(** Modelled from the spec: [findByAuthorId(authorId) -> sequence<Article>],
    all articles whose author matches. *)
Definition findByAuthorId (A : string) (s : Store) : list Article :=
  filter (has_author A) (articles s).

(** Modelled from the spec: [findAll() -> sequence<Article>]. *)
Definition findAll (s : Store) : list Article := articles s.

(** The identity given to the next record: a non-empty string that was
    never handed out. *)
Definition new_id (s : Store) : string := fresh ({[""]} ∪ seen s).

(** Modelled from the spec: [create(data: ArticleWithoutId) -> Article], the
    repository assigns a new identity and persists the record. *)
Definition create (data : JsObject) (s : Store) : Article * Store :=
  let i := new_id s in
  let article := <["id" := JStr i]> data in
  (article, {| articles := articles s ++ [article]; seen := {[i]} ∪ seen s |}).

(** [{ ...article, ...data }] *)
Definition assign (data : JsObject) (article : Article) : Article :=
  data ∪ article.

(** Modelled from the spec: [update(id, partialData) -> Article], only the
    supplied fields change.  With no record of that id nothing is stored and
    the supplied fields alone come back. *)
Definition update (i : string) (data : JsObject) (s : Store) : Article * Store :=
  (assign data (default ∅ (findById i s)),
   {| articles := (λ a, if decide (has_id i a) then assign data a else a)
                    <$> articles s;
      seen := seen s |}).

(** Modelled from the spec: [delete(id) -> void]. *)
Definition delete (i : string) (s : Store) : Store :=
  {| articles := filter (λ a, ¬ has_id i a) (articles s); seen := seen s |}.

#[global] Instance repository : ArticleRepository Store :=
  Build_ArticleRepository Store findById findByAuthorId findAll create update delete.

(** Every stored record carries an identity that was handed out. *)
Definition wf (s : Store) : Prop :=
  ∀ a, a ∈ articles s → ∃ i, has_id i a ∧ i ∈ seen s.

End Memory.

(** The article model used in the examples: [id], [title], [authorId]. *)
Definition exampleSchema : v.ObjectSchema :=
  [("id", v.string); ("title", v.string); ("authorId", v.string)].

Definition example_article : Article :=
  {[ "id" := JStr "0"; "title" := JStr "T"; "authorId" := JStr "u1" ]}.

Definition example_store : Memory.Store :=
  {| Memory.articles := [example_article]; Memory.seen := {["0"]} |}.

(** * Properties *)

(** ** The validator *)

Section Validator.
Implicit Types (schema : v.ObjectSchema) (input output : JsObject).

(** The output of a parse has declared keys only. *)
Lemma parse_declared schema input output key :
  v.parse schema input = Some output →
  is_Some (output !! key) → key ∈ v.keys schema.
Proof.
  unfold v.keys. revert output.
  induction schema as [|[k f] rest IH]; intros output Hparse Hkey; simpl in *.
  - injection Hparse as <-. rewrite lookup_empty in Hkey. by destruct Hkey.
  - destruct (v.parse rest input) as [out|] eqn:Hrest; simpl in Hparse; [|done].
    destruct (decide (key = k)) as [->|Hne]; [set_solver|].
    apply list_elem_of_further, (IH out); [done|].
    destruct (input !! k) as [x|].
    + destruct (v.accepts f x); [|done]. injection Hparse as <-.
      by rewrite lookup_insert_ne in Hkey.
    + destruct (v.is_optional f); [|done]. by injection Hparse as <-.
Qed.

(** Every entry of the output is the entry of the input. *)
Lemma parse_copies schema input output key x :
  v.parse schema input = Some output →
  output !! key = Some x → input !! key = Some x.
Proof.
  revert output.
  induction schema as [|[k f] rest IH]; intros output Hparse Hkey; simpl in *.
  - injection Hparse as <-. by rewrite lookup_empty in Hkey.
  - destruct (v.parse rest input) as [out|] eqn:Hrest; simpl in Hparse; [|done].
    destruct (input !! k) as [y|] eqn:Hk.
    + destruct (v.accepts f y); [|done]. injection Hparse as <-.
      destruct (decide (k = key)) as [->|Hne].
      * rewrite lookup_insert_eq in Hkey. congruence.
      * rewrite lookup_insert_ne in Hkey; eauto.
    + destruct (v.is_optional f); [|done]. injection Hparse as <-. eauto.
Qed.

Lemma keys_omit schema ks :
  v.keys (v.omit schema ks) = filter (λ k, k ∉ ks) (v.keys schema).
Proof.
  unfold v.keys, v.omit.
  induction schema as [|[k f] rest IH]; [done|].
  rewrite fmap_cons, !filter_cons. simpl.
  case_decide; [rewrite fmap_cons; simpl; f_equal|]; exact IH.
Qed.

Lemma keys_partial schema : v.keys (v.partial schema) = v.keys schema.
Proof.
  unfold v.keys, v.partial. rewrite <- list_fmap_compose.
  apply list_fmap_ext. by intros ? [k f].
Qed.

Lemma partial_optional schema key f :
  (key, f) ∈ v.partial schema → v.is_optional f = true.
Proof.
  unfold v.partial. intros ([k g] & [= -> ->] & _)%list_elem_of_fmap. done.
Qed.

(** A key that was omitted from the schema is not in the output, whatever
    the input holds there; the same after [v.partial]. *)
Lemma parse_omitted schema ks input output key :
  key ∈ ks →
  v.parse (v.omit schema ks) input = Some output
  ∨ v.parse (v.partial (v.omit schema ks)) input = Some output →
  output !! key = None.
Proof.
  intros Hin Hparse. apply eq_None_not_Some. intros Hsome.
  assert (key ∈ v.keys (v.omit schema ks)) as Hkey.
  { destruct Hparse as [Hparse|Hparse].
    - by eapply parse_declared.
    - rewrite <- keys_partial. by eapply parse_declared. }
  rewrite keys_omit in Hkey. apply list_elem_of_filter in Hkey. tauto.
Qed.

End Validator.

(** ** The handlers, against any repository *)

Section Handlers.
Context {S : Type} `{!ArticleRepository S}.
Variable ArticleSchema : v.ObjectSchema.
Implicit Types (s : S) (i : string) (article : Article) (data json : JsObject).

Lemma vValidator_valid schema json data handler :
  v.parse schema json = Some data → vValidator schema json handler = handler data.
Proof. unfold vValidator. by intros ->. Qed.

Lemma vValidator_issues schema json handler s :
  v.parse schema json = None →
  run (vValidator schema json handler) s =
    {| returned := {| status := 400; body := Json IssuesResponse |};
       state := s; calls := [] |}.
Proof. unfold vValidator. by intros ->. Qed.

Lemma getArticle_absent s i :
  findById i s = None → run (getArticle i) s = not_found s i.
Proof. intros Hi. unfold getArticle, not_found. cbn. by rewrite Hi. Qed.

Lemma getArticle_present s i article :
  findById i s = Some article →
  run (getArticle i) s =
    {| returned := {| status := 200; body := Json (ArticleResponse article) |};
       state := s;
       calls := [called (FindById i)] |}.
Proof. intros Hi. unfold getArticle. cbn. by rewrite Hi. Qed.

Lemma putArticle_absent s i data :
  findById i s = None → run (putArticle i data) s = not_found s i.
Proof. intros Hi. unfold putArticle, not_found. cbn. by rewrite Hi. Qed.

Lemma putArticle_present s i data existing :
  findById i s = Some existing →
  run (putArticle i data) s =
    {| returned := {| status := 200;
                      body := Json (ArticleResponse (update i data s).1) |};
       state := (update i data s).2;
       calls := [called (FindById i); called (Update i data)] |}.
Proof.
  intros Hi. unfold putArticle. cbn. rewrite Hi. cbn.
  by destruct (update i data s).
Qed.

Lemma deleteArticle_absent s i :
  findById i s = None → run (deleteArticle i) s = not_found s i.
Proof. intros Hi. unfold deleteArticle, not_found. cbn. by rewrite Hi. Qed.

Lemma deleteArticle_present s i existing :
  findById i s = Some existing →
  run (deleteArticle i) s =
    {| returned := {| status := 200;
                      body := Json (MessageResponse "Article deleted successfully") |};
       state := delete i s;
       calls := [called (FindById i); called (Delete i)] |}.
Proof. intros Hi. unfold deleteArticle. cbn. by rewrite Hi. Qed.

Lemma postArticle_run s data :
  run (postArticle data) s =
    {| returned := {| status := 200;
                      body := Json (ArticleResponse (create data s).1) |};
       state := (create data s).2;
       calls := [called (Create data)] |}.
Proof. unfold postArticle. cbn. by destruct (create data s). Qed.

Lemma getArticles_filtered s query A :
  query ≫= authorId = Some A → truthy A = true →
  run (getArticles query) s =
    {| returned := {| status := 200;
                      body := Json (ArticlesResponse (findByAuthorId A s)) |};
       state := s;
       calls := [called (FindByAuthorId A)] |}.
Proof. intros HA Ht. unfold getArticles. by rewrite HA, Ht. Qed.

Lemma getArticles_unfiltered s query :
  query ≫= authorId = None ∨ query ≫= authorId = Some "" →
  run (getArticles query) s =
    {| returned := {| status := 200;
                      body := Json (ArticlesResponse (findAll s)) |};
       state := s;
       calls := [called FindAll] |}.
Proof. intros [HA|HA]; unfold getArticles; by rewrite HA. Qed.

(** The query validator accepts a query whose [authorId] is a string or is
    missing, and hands the string over. *)
Lemma query_valid (query : JsObject) (oa : option string) :
  query !! "authorId" = JStr <$> oa →
  ∃ output, v.parse ArticleQuerySchema query = Some output
            ∧ valid_query output ≫= authorId = oa.
Proof.
  intros Hq. unfold ArticleQuerySchema, valid_query. simpl. rewrite Hq.
  destruct oa as [A|]; simpl; eexists; (split; [done|]); simpl.
  - by rewrite lookup_insert_eq.
  - by rewrite lookup_empty.
Qed.

(** [GET /] through its validator. *)
Lemma list_route_filtered s (query : JsObject) A :
  query !! "authorId" = Some (JStr A) → A ≠ "" →
  run (articleRoutes ArticleSchema (GET query)) s =
    {| returned := {| status := 200;
                      body := Json (ArticlesResponse (findByAuthorId A s)) |};
       state := s;
       calls := [called (FindByAuthorId A)] |}.
Proof.
  intros HA Hne.
  destruct (query_valid query (Some A) HA) as (output & Hparse & Hout).
  cbn [articleRoutes]. rewrite (vValidator_valid _ _ output) by done.
  apply getArticles_filtered; [done|]. by apply bool_decide_eq_true.
Qed.

Lemma list_route_unfiltered s (query : JsObject) :
  query !! "authorId" = None ∨ query !! "authorId" = Some (JStr "") →
  run (articleRoutes ArticleSchema (GET query)) s =
    {| returned := {| status := 200;
                      body := Json (ArticlesResponse (findAll s)) |};
       state := s;
       calls := [called FindAll] |}.
Proof.
  intros HA.
  assert (∃ oa, query !! "authorId" = JStr <$> oa ∧ (oa = None ∨ oa = Some ""))
    as (oa & Hq & Hoa).
  { destruct HA as [HA|HA]; [exists None|exists (Some "")]; eauto. }
  destruct (query_valid query oa Hq) as (output & Hparse & Hout).
  cbn [articleRoutes]. rewrite (vValidator_valid _ _ output) by done.
  apply getArticles_unfiltered. rewrite Hout. tauto.
Qed.

(** C1: for an id with no matching record ([findById] yields nothing),
    [GET /:id], [PUT /:id] (with a body that passes validation) and
    [DELETE /:id] each answer 404 with the plain text "Article not found";
    the only repository call made is the lookup, so [update] and [delete]
    are not invoked and the repository state is the one before. *)
Theorem missing_id_is_not_found s i json data :
  findById i s = None →
  v.parse (v.partial (ArticleWithoutIdSchema ArticleSchema)) json = Some data →
  run (articleRoutes ArticleSchema (GET_id i)) s = not_found s i
  ∧ run (articleRoutes ArticleSchema (PUT i json)) s = not_found s i
  ∧ run (articleRoutes ArticleSchema (DELETE i)) s = not_found s i.
Proof.
  intros Hi Hjson. simpl. repeat split.
  - by apply getArticle_absent.
  - rewrite (vValidator_valid _ _ data) by done. by apply putArticle_absent.
  - by apply deleteArticle_absent.
Qed.

(** C5 (amended): [GET /] with a non-empty [authorId] in the query answers
    200 with [{ articles }] holding the result of [findByAuthorId]; with no
    [authorId] it answers 200 with the result of [findAll].  Nothing depends
    on the sequence being empty or not. *)
Theorem list_articles s (query : JsObject) :
  (∀ A, query !! "authorId" = Some (JStr A) → A ≠ "" →
     run (articleRoutes ArticleSchema (GET query)) s =
       {| returned := {| status := 200;
                         body := Json (ArticlesResponse (findByAuthorId A s)) |};
          state := s;
          calls := [called (FindByAuthorId A)] |})
  ∧ (query !! "authorId" = None →
     run (articleRoutes ArticleSchema (GET query)) s =
       {| returned := {| status := 200;
                         body := Json (ArticlesResponse (findAll s)) |};
          state := s;
          calls := [called FindAll] |}).
Proof.
  split.
  - intros A HA Hne. by apply list_route_filtered.
  - intros HA. apply list_route_unfiltered. by left.
Qed.

(** C6: when [findById] yields an article for the id, [DELETE /:id] calls
    [delete] with that id after the lookup and answers 200 with
    [{ message: "Article deleted successfully" }]. *)
Theorem delete_existing s i article :
  findById i s = Some article →
  run (articleRoutes ArticleSchema (DELETE i)) s =
    {| returned := {| status := 200;
                      body := Json (MessageResponse "Article deleted successfully") |};
       state := delete i s;
       calls := [called (FindById i); called (Delete i)] |}.
Proof. intros Hi. simpl. by eapply deleteArticle_present. Qed.

(** C10: a [GET /] whose query gives [authorId] as the empty string takes
    the unfiltered branch: the only call is [findAll] and its result is the
    response, not that of [findByAuthorId("")]. *)
Theorem empty_authorId_lists_all s (query : JsObject) :
  query !! "authorId" = Some (JStr "") →
  run (articleRoutes ArticleSchema (GET query)) s =
    {| returned := {| status := 200;
                      body := Json (ArticlesResponse (findAll s)) |};
       state := s;
       calls := [called FindAll] |}.
Proof. intros HA. apply list_route_unfiltered. by right. Qed.

(** The calls of each route, whatever the repository answers. *)
Lemma calls_articleRoutes s request c :
  c ∈ calls (run (articleRoutes ArticleSchema request) s) →
  match request with
  | GET_id i | DELETE i => c = called (FindById i) ∨ c = called (Delete i)
  | GET _ => call_data c = None
  | POST json =>
      ∃ data, v.parse (ArticleWithoutIdSchema ArticleSchema) json = Some data
              ∧ c = called (Create data)
  | PUT i json =>
      c = called (FindById i)
      ∨ ∃ data, v.parse (v.partial (ArticleWithoutIdSchema ArticleSchema)) json
                = Some data
                ∧ c = called (Update i data)
  end.
Proof.
  destruct request as [i|query|json|i json|i]; cbn [articleRoutes].
  - destruct (findById i s) as [a|] eqn:Hi.
    + rewrite (getArticle_present _ _ a) by done. simpl.
      intros ->%list_elem_of_singleton. by left.
    + rewrite getArticle_absent by done. simpl.
      intros ->%list_elem_of_singleton. by left.
  - unfold vValidator. destruct (v.parse ArticleQuerySchema query) as [output|].
    + unfold getArticles.
      destruct (valid_query output ≫= authorId) as [A|]; [destruct (truthy A)|];
        simpl; intros ->%list_elem_of_singleton; done.
    + simpl. by intros ?%elem_of_nil.
  - unfold vValidator.
    destruct (v.parse (ArticleWithoutIdSchema ArticleSchema) json) as [data|].
    + rewrite postArticle_run. simpl. intros ->%list_elem_of_singleton. eauto.
    + simpl. by intros ?%elem_of_nil.
  - unfold vValidator.
    destruct (v.parse (v.partial (ArticleWithoutIdSchema ArticleSchema)) json)
      as [data|].
    + destruct (findById i s) as [a|] eqn:Hi.
      * rewrite (putArticle_present _ _ _ a) by done. simpl.
        rewrite elem_of_cons, list_elem_of_singleton. intros [->| ->]; eauto.
      * rewrite putArticle_absent by done. simpl.
        intros ->%list_elem_of_singleton. by left.
    + simpl. by intros ?%elem_of_nil.
  - destruct (findById i s) as [a|] eqn:Hi.
    + rewrite (deleteArticle_present _ _ a) by done. simpl.
      rewrite elem_of_cons, list_elem_of_singleton. intros [->| ->]; eauto.
    + rewrite deleteArticle_absent by done. simpl.
      intros ->%list_elem_of_singleton. by left.
Qed.

(** C7: the create shape is the article shape without [id], the update
    shape has the keys of the create shape, each optional; whatever a client
    sends, the data of every [create] and [update] call made by a route has
    no [id]. *)
Theorem client_id_never_reaches_repository :
  v.keys (ArticleWithoutIdSchema ArticleSchema)
    = filter (λ key, key ∉ ["id"]) (v.keys ArticleSchema)
  ∧ v.keys (v.partial (ArticleWithoutIdSchema ArticleSchema))
    = v.keys (ArticleWithoutIdSchema ArticleSchema)
  ∧ (∀ key f, (key, f) ∈ v.partial (ArticleWithoutIdSchema ArticleSchema) →
       v.is_optional f = true)
  ∧ (∀ s request c data,
       c ∈ calls (run (articleRoutes ArticleSchema request) s) →
       call_data c = Some data → data !! "id" = None).
Proof.
  split; [apply keys_omit|]. split; [apply keys_partial|].
  split; [apply partial_optional|].
  intros s request c data Hc Hdata. apply calls_articleRoutes in Hc.
  assert ("id" ∈ ["id"]) as Hid by set_solver.
  destruct request as [i|query|json|i json|i].
  - by destruct Hc as [-> | ->].
  - congruence.
  - destruct Hc as (data' & Hparse & ->). injection Hdata as <-.
    eapply parse_omitted; eauto.
  - destruct Hc as [->|(data' & Hparse & ->)]; [done|]. injection Hdata as <-.
    eapply parse_omitted; eauto.
  - by destruct Hc as [-> | ->].
Qed.

End Handlers.

(** ** The in-memory repository *)

Section MemoryRepository.
Import Memory.
Implicit Types (s : Store) (i A : string) (a article : Article) (data : JsObject).

Lemma findById_Some i s a :
  Memory.findById i s = Some a → has_id i a ∧ a ∈ articles s.
Proof.
  unfold Memory.findById. intros Ha%head_Some_elem_of.
  apply list_elem_of_filter in Ha. tauto.
Qed.

Lemma findById_None i s :
  Memory.findById i s = None ↔ ∀ a, a ∈ articles s → ¬ has_id i a.
Proof.
  unfold Memory.findById. rewrite head_None. split.
  - intros Hnil a Ha Hid. by eapply filter_nil_not_elem_of.
  - intros Hall. induction (articles s) as [|a l IH]; [done|].
    rewrite filter_cons_False by (apply Hall; left).
    apply IH. intros b Hb. apply Hall. by right.
Qed.

(** [delete] leaves no record under the id. *)
Lemma findById_delete i s : Memory.findById i (Memory.delete i s) = None.
Proof.
  apply findById_None. intros a Ha. simpl in Ha.
  apply list_elem_of_filter in Ha. tauto.
Qed.

(** The new identity is not empty and was not handed out. *)
Lemma new_id_fresh s : new_id s ≠ "" ∧ new_id s ∉ seen s.
Proof.
  pose proof (is_fresh ({[""]} ∪ seen s)) as Hfresh. fold (new_id s) in Hfresh.
  split; intros H; apply Hfresh; [rewrite H|]; set_solver.
Qed.

Lemma has_id_assign i data a :
  data !! "id" = None → has_id i (assign data a) ↔ has_id i a.
Proof.
  intros Hid. unfold has_id, id_of, assign. by rewrite lookup_union_r.
Qed.

(** [update] with data that has no [id] stores the merged record under the
    same id. *)
Lemma findById_update i data s a :
  data !! "id" = None →
  Memory.findById i s = Some a →
  Memory.findById i (Memory.update i data s).2 = Some (assign data a).
Proof.
  intros Hid. unfold Memory.findById. simpl.
  induction (articles s) as [|b l IH]; [done|].
  rewrite fmap_cons. destruct (decide (has_id i b)) as [Hb|Hb].
  - rewrite !filter_cons_True by (done || by apply has_id_assign).
    simpl. by intros [= ->].
  - rewrite !filter_cons_False by done. apply IH.
Qed.

(** The invariant holds initially and every operation keeps it, [update]
    as long as its data has no [id]. *)
Lemma wf_empty : wf Memory.empty.
Proof. intros a Ha. by apply elem_of_nil in Ha. Qed.

Lemma wf_create data s : wf s → wf (Memory.create data s).2.
Proof.
  intros Hwf a. simpl. rewrite elem_of_app, list_elem_of_singleton.
  intros [Ha| ->].
  - destruct (Hwf a Ha) as (i & Hi & Hseen). exists i. split; [done|set_solver].
  - exists (new_id s). split; [|set_solver].
    unfold has_id, id_of. by rewrite lookup_insert_eq.
Qed.

Lemma wf_update i data s :
  data !! "id" = None → wf s → wf (Memory.update i data s).2.
Proof.
  intros Hid Hwf a. simpl. intros (b & -> & Hb)%list_elem_of_fmap.
  destruct (Hwf b Hb) as (j & Hj & Hseen). exists j. split; [|done].
  destruct (decide (has_id i b)); [|done]. by apply has_id_assign.
Qed.

Lemma wf_delete i s : wf s → wf (Memory.delete i s).
Proof.
  intros Hwf a. simpl. intros [_ Ha]%list_elem_of_filter. by apply Hwf.
Qed.

(** A new identity is the id of no stored record. *)
Lemma new_id_unused s a : wf s → a ∈ articles s → ¬ has_id (new_id s) a.
Proof.
  intros Hwf Ha Hnew. destruct (Hwf a Ha) as (i & Hi & Hseen).
  unfold has_id in *. assert (i = new_id s) as -> by congruence.
  by apply (new_id_fresh s).
Qed.

(** [create] stores the record under the new identity. *)
Lemma findById_create data s :
  wf s →
  Memory.findById (new_id s) (Memory.create data s).2
  = Some (Memory.create data s).1.
Proof.
  intros Hwf. unfold Memory.findById. simpl. rewrite filter_app.
  assert (filter (has_id (new_id s)) (articles s) = []) as ->.
  { apply head_None, findById_None. intros a Ha. by apply new_id_unused. }
  rewrite filter_cons_True; [done|].
  unfold has_id, id_of. by rewrite lookup_insert_eq.
Qed.

End MemoryRepository.

(** ** The routes over the in-memory repository *)

Section MemoryRoutes.
Variable ArticleSchema : v.ObjectSchema.
Implicit Types (s : Memory.Store) (i A : string) (a article : Article) (json data : JsObject).

(** C4: when [findById] yields an article for the id, [GET /:id] answers 200
    with [{ article }] holding that record, and the record's [id] is the id
    asked for. *)
Theorem get_existing s i article :
  Memory.findById i s = Some article →
  run (articleRoutes ArticleSchema (GET_id i)) s =
    {| returned := {| status := 200; body := Json (ArticleResponse article) |};
       state := s;
       calls := [called (FindById i)] |}
  ∧ id_of article = Some (JStr i).
Proof.
  intros Hi. split.
  - cbn [articleRoutes]. by apply getArticle_present.
  - by apply findById_Some in Hi as [Hid _].
Qed.

(** C2: on an existing article, [PUT /:id] with a validated body that is the
    single assignment [{field: x}] answers 200 with [{ article }] holding
    the stored record: [field] is [x] there, every other field is as before,
    the [id] is the same (and [field] is not [id]). *)
Theorem put_single_field s i existing json field x :
  Memory.findById i s = Some existing →
  v.parse (v.partial (ArticleWithoutIdSchema ArticleSchema)) json
    = Some {[field := x]} →
  ∃ article,
    run (articleRoutes ArticleSchema (PUT i json)) s =
      {| returned := {| status := 200; body := Json (ArticleResponse article) |};
         state := (Memory.update i {[field := x]} s).2;
         calls := [called (FindById i); called (Update i {[field := x]})] |}
    ∧ field ≠ "id"
    ∧ article !! field = Some x
    ∧ (∀ key, key ≠ field → article !! key = existing !! key)
    ∧ id_of article = id_of existing
    ∧ id_of article = Some (JStr i)
    ∧ Memory.findById i (Memory.update i {[field := x]} s).2 = Some article.
Proof.
  intros Hi Hjson. exists (Memory.assign {[field := x]} existing).
  assert (({[field := x]} : JsObject) !! "id" = None) as Hid.
  { eapply (parse_omitted ArticleSchema ["id"]); [set_solver|by right]. }
  assert (field ≠ "id") as Hfield.
  { intros ->. by rewrite lookup_singleton_eq in Hid. }
  assert (∀ key, key ≠ field →
            Memory.assign {[field := x]} existing !! key = existing !! key) as Hframe.
  { intros key Hkey. unfold Memory.assign.
    rewrite lookup_union_r; [done|]. by apply lookup_singleton_ne. }
  repeat split; try done.
  - cbn [articleRoutes]. rewrite (vValidator_valid _ _ {[field := x]}) by done.
    rewrite (putArticle_present _ _ _ existing) by done.
    cbn [update Memory.repository]. unfold Memory.update. cbn [fst snd].
    by rewrite Hi.
  - unfold Memory.assign. apply lookup_union_Some_l, lookup_singleton_eq.
  - by apply Hframe.
  - unfold id_of. rewrite Hframe by done. by apply findById_Some in Hi as [Hi _].
  - by apply findById_update.
Qed.

(** C3: [POST /] with a body that passes validation calls [create] with the
    validated fields and nothing else, and answers 200 with [{ article }]
    holding the stored record: its [id] is a non-empty string that was never
    handed out and that no stored record carries, and every other field is
    exactly the submitted one. *)
Theorem post_creates s json data :
  Memory.wf s →
  v.parse (ArticleWithoutIdSchema ArticleSchema) json = Some data →
  ∃ i article,
    run (articleRoutes ArticleSchema (POST json)) s =
      {| returned := {| status := 200; body := Json (ArticleResponse article) |};
         state := {| Memory.articles := Memory.articles s ++ [article];
                     Memory.seen := {[i]} ∪ Memory.seen s |};
         calls := [called (Create data)] |}
    ∧ id_of article = Some (JStr i)
    ∧ i ≠ ""
    ∧ (i ∉ Memory.seen s)
    ∧ (∀ a, a ∈ Memory.articles s → id_of a ≠ Some (JStr i))
    ∧ (∀ key, key ≠ "id" → article !! key = data !! key)
    ∧ (∀ key x, data !! key = Some x → article !! key = Some x)
    ∧ Memory.findById i {| Memory.articles := Memory.articles s ++ [article];
                           Memory.seen := {[i]} ∪ Memory.seen s |} = Some article.
Proof.
  intros Hwf Hjson. exists (Memory.new_id s), (<["id" := JStr (Memory.new_id s)]> data).
  assert (data !! "id" = None) as Hid.
  { eapply (parse_omitted ArticleSchema ["id"]); [set_solver|by left]. }
  destruct (new_id_fresh s) as [Hne Hunseen].
  repeat split; try done.
  - cbn [articleRoutes]. rewrite (vValidator_valid _ _ data) by done.
    by rewrite postArticle_run.
  - unfold id_of. by rewrite lookup_insert_eq.
  - intros a Ha. by apply new_id_unused.
  - intros key Hkey. by rewrite lookup_insert_ne.
  - intros key x Hkey. rewrite lookup_insert_ne; [done|]. congruence.
  - by apply (findById_create data s).
Qed.

(** C8 (amended): for a non-empty author identifier [A], the articles that
    [GET /?authorId=A] answers are those of [GET /] whose author is [A], in
    the same order; when there is none the answer is the empty list, with
    status 200. *)
Theorem author_filter_is_subset s A :
  A ≠ "" →
  ∃ filtered all,
    returned (run (articleRoutes ArticleSchema (GET {["authorId" := JStr A]})) s)
      = {| status := 200; body := Json (ArticlesResponse filtered) |}
    ∧ returned (run (articleRoutes ArticleSchema (GET ∅)) s)
      = {| status := 200; body := Json (ArticlesResponse all) |}
    ∧ filtered = filter (Memory.has_author A) all
    ∧ ((∀ a, a ∈ all → ¬ Memory.has_author A a) → filtered = []).
Proof.
  intros HA. exists (Memory.findByAuthorId A s), (Memory.findAll s).
  rewrite (list_route_filtered _ _ _ A) by (done || by rewrite lookup_singleton_eq).
  rewrite list_route_unfiltered by by left.
  repeat split.
  unfold Memory.findByAuthorId, Memory.findAll. intros Hall.
  induction (Memory.articles s) as [|a l IH]; [done|].
  rewrite filter_cons_False by (apply Hall; left).
  apply IH. intros b Hb. apply Hall. by right.
Qed.

(** C9: after a [DELETE /:id] that answered 200, a [GET /:id] on the state it
    left answers 404 with the plain text "Article not found". *)
Theorem get_after_delete s i :
  status (returned (run (articleRoutes ArticleSchema (DELETE i)) s)) = 200 →
  run (articleRoutes ArticleSchema (GET_id i))
      (state (run (articleRoutes ArticleSchema (DELETE i)) s))
  = not_found (state (run (articleRoutes ArticleSchema (DELETE i)) s)) i.
Proof.
  cbn [articleRoutes]. destruct (Memory.findById i s) as [a|] eqn:Hi.
  - rewrite (deleteArticle_present s i a) by done. cbn [state]. intros _.
    apply getArticle_absent. apply findById_delete.
  - rewrite (deleteArticle_absent s i) by done. discriminate.
Qed.

End MemoryRoutes.

(** * Instances on the example store *)

(** C1 at id "7", which the example store does not hold. *)
Lemma missing_id_is_not_found_witness :
  run (articleRoutes exampleSchema (GET_id "7")) example_store
    = not_found example_store "7"
  ∧ run (articleRoutes exampleSchema (PUT "7" {["title" := JStr "T2"]}))
        example_store
    = not_found example_store "7"
  ∧ run (articleRoutes exampleSchema (DELETE "7")) example_store
    = not_found example_store "7".
Proof.
  refine (missing_id_is_not_found exampleSchema example_store "7"
            {["title" := JStr "T2"]} {["title" := JStr "T2"]} _ _);
    vm_compute; reflexivity.
Defined.

(** C5 as stated fails for [GET /?authorId=]: the query field is provided,
    yet the answer is not the result of [findByAuthorId("")] (no article has
    the empty author) but the whole collection. *)
Lemma list_articles_empty_authorId :
  ({["authorId" := JStr ""]} : JsObject) !! "authorId" = Some (JStr "")
  ∧ findByAuthorId "" example_store = []
  ∧ returned (run (articleRoutes exampleSchema (GET {["authorId" := JStr ""]}))
                  example_store)
    = {| status := 200; body := Json (ArticlesResponse [example_article]) |}
  ∧ returned (run (articleRoutes exampleSchema (GET {["authorId" := JStr ""]}))
                  example_store)
    ≠ {| status := 200;
         body := Json (ArticlesResponse (findByAuthorId "" example_store)) |}.
Proof.
  split; [reflexivity|]. split; [reflexivity|].
  rewrite list_route_unfiltered by (by right).
  split; [reflexivity|]. intros [=].
Qed.

(** C5 (amended) at the queries [?authorId=u1] and no query. *)
Lemma list_articles_witness :
  run (articleRoutes exampleSchema (GET {["authorId" := JStr "u1"]}))
      example_store
    = {| returned := {| status := 200;
                        body := Json (ArticlesResponse [example_article]) |};
         state := example_store;
         calls := [called (FindByAuthorId "u1")] |}
  ∧ run (articleRoutes exampleSchema (GET ∅)) example_store
    = {| returned := {| status := 200;
                        body := Json (ArticlesResponse [example_article]) |};
         state := example_store;
         calls := [called FindAll] |}.
Proof.
  split.
  - exact (proj1 (list_articles exampleSchema example_store
                    {["authorId" := JStr "u1"]}) "u1" eq_refl ltac:(done)).
  - exact (proj2 (list_articles exampleSchema example_store ∅) eq_refl).
Defined.

(** C6 at the stored id "0". *)
Lemma delete_existing_witness :
  run (articleRoutes exampleSchema (DELETE "0")) example_store =
    {| returned := {| status := 200;
                      body := Json (MessageResponse "Article deleted successfully") |};
       state := {| Memory.articles := []; Memory.seen := {["0"]} |};
       calls := [called (FindById "0"); called (Delete "0")] |}.
Proof.
  refine (delete_existing exampleSchema example_store "0" example_article _).
  vm_compute; reflexivity.
Defined.

(** C10 at the query [?authorId=]. *)
Lemma empty_authorId_lists_all_witness :
  run (articleRoutes exampleSchema (GET {["authorId" := JStr ""]})) example_store =
    {| returned := {| status := 200;
                      body := Json (ArticlesResponse [example_article]) |};
       state := example_store;
       calls := [called FindAll] |}.
Proof.
  refine (empty_authorId_lists_all exampleSchema example_store
            {["authorId" := JStr ""]} _).
  reflexivity.
Defined.

(** C7 at a create request that carries an [id] of the client's. *)
Lemma client_id_never_reaches_repository_witness :
  calls (run (articleRoutes exampleSchema
                (POST {["id" := JStr "mine"; "title" := JStr "T";
                        "authorId" := JStr "u1"]}))
             Memory.empty)
    = [called (Create {["title" := JStr "T"; "authorId" := JStr "u1"]})]
  ∧ ({["title" := JStr "T"; "authorId" := JStr "u1"]} : JsObject) !! "id" = None.
Proof.
  split; [vm_compute; reflexivity|].
  refine (proj2 (proj2 (proj2 (client_id_never_reaches_repository exampleSchema)))
            Memory.empty
            (POST {["id" := JStr "mine"; "title" := JStr "T";
                    "authorId" := JStr "u1"]})
            (called (Create {["title" := JStr "T"; "authorId" := JStr "u1"]}))
            _ _ _).
  - vm_compute. left.
  - reflexivity.
Defined.

(** C4 at the stored id "0". *)
Lemma get_existing_witness :
  run (articleRoutes exampleSchema (GET_id "0")) example_store =
    {| returned := {| status := 200;
                      body := Json (ArticleResponse example_article) |};
       state := example_store;
       calls := [called (FindById "0")] |}
  ∧ id_of example_article = Some (JStr "0").
Proof.
  refine (get_existing exampleSchema example_store "0" example_article _).
  vm_compute; reflexivity.
Defined.

(** C2 at [PUT /0] with body [{title: "T2"}]. *)
Lemma put_single_field_witness :
  ∃ article,
    run (articleRoutes exampleSchema (PUT "0" {["title" := JStr "T2"]}))
        example_store =
      {| returned := {| status := 200; body := Json (ArticleResponse article) |};
         state := (Memory.update "0" {["title" := JStr "T2"]} example_store).2;
         calls := [called (FindById "0");
                   called (Update "0" {["title" := JStr "T2"]})] |}
    ∧ "title" ≠ "id"
    ∧ article !! "title" = Some (JStr "T2")
    ∧ (∀ key, key ≠ "title" → article !! key = example_article !! key)
    ∧ id_of article = id_of example_article
    ∧ id_of article = Some (JStr "0")
    ∧ Memory.findById "0"
        (Memory.update "0" {["title" := JStr "T2"]} example_store).2
      = Some article.
Proof.
  refine (put_single_field exampleSchema example_store "0" example_article
            {["title" := JStr "T2"]} "title" (JStr "T2") _ _);
    vm_compute; reflexivity.
Defined.

(** C3 at the first create on the empty store. *)
Lemma post_creates_witness :
  ∃ i article,
    run (articleRoutes exampleSchema
           (POST {["title" := JStr "T"; "authorId" := JStr "u1"]}))
        Memory.empty =
      {| returned := {| status := 200; body := Json (ArticleResponse article) |};
         state := {| Memory.articles := Memory.articles Memory.empty ++ [article];
                     Memory.seen := {[i]} ∪ Memory.seen Memory.empty |};
         calls := [called (Create {["title" := JStr "T";
                                    "authorId" := JStr "u1"]})] |}
    ∧ id_of article = Some (JStr i)
    ∧ i ≠ ""
    ∧ (i ∉ Memory.seen Memory.empty)
    ∧ (∀ a, a ∈ Memory.articles Memory.empty → id_of a ≠ Some (JStr i))
    ∧ (∀ key, key ≠ "id" →
         article !! key
         = ({["title" := JStr "T"; "authorId" := JStr "u1"]} : JsObject) !! key)
    ∧ (∀ key x,
         ({["title" := JStr "T"; "authorId" := JStr "u1"]} : JsObject) !! key
         = Some x → article !! key = Some x)
    ∧ Memory.findById i
        {| Memory.articles := Memory.articles Memory.empty ++ [article];
           Memory.seen := {[i]} ∪ Memory.seen Memory.empty |}
      = Some article.
Proof.
  refine (post_creates exampleSchema Memory.empty
            {["title" := JStr "T"; "authorId" := JStr "u1"]}
            {["title" := JStr "T"; "authorId" := JStr "u1"]} _ _).
  - apply wf_empty.
  - vm_compute; reflexivity.
Defined.

(** C8 as stated fails for the empty author identifier: [GET /?authorId=]
    answers every article, while no article of [GET /] has the empty
    author. *)
Lemma author_filter_empty_authorId :
  returned (run (articleRoutes exampleSchema (GET {["authorId" := JStr ""]}))
                example_store)
    = {| status := 200; body := Json (ArticlesResponse [example_article]) |}
  ∧ returned (run (articleRoutes exampleSchema (GET ∅)) example_store)
    = {| status := 200; body := Json (ArticlesResponse [example_article]) |}
  ∧ filter (Memory.has_author "") [example_article] = []
  ∧ [example_article] ≠ filter (Memory.has_author "") [example_article].
Proof.
  split; [vm_compute; reflexivity|]. split; [vm_compute; reflexivity|].
  assert (filter (Memory.has_author "") [example_article] = []) as ->
    by (vm_compute; reflexivity).
  split; [reflexivity|]. intros [=].
Qed.

(** C8 (amended) at the author "u1". *)
Lemma author_filter_is_subset_witness :
  ∃ filtered all,
    returned (run (articleRoutes exampleSchema (GET {["authorId" := JStr "u1"]}))
                  example_store)
      = {| status := 200; body := Json (ArticlesResponse filtered) |}
    ∧ returned (run (articleRoutes exampleSchema (GET ∅)) example_store)
      = {| status := 200; body := Json (ArticlesResponse all) |}
    ∧ filtered = filter (Memory.has_author "u1") all
    ∧ ((∀ a, a ∈ all → ¬ Memory.has_author "u1" a) → filtered = []).
Proof.
  refine (author_filter_is_subset exampleSchema example_store "u1" _). done.
Defined.

(** C9 at the stored id "0". *)
Lemma get_after_delete_witness :
  run (articleRoutes exampleSchema (GET_id "0"))
      (state (run (articleRoutes exampleSchema (DELETE "0")) example_store))
  = not_found (state (run (articleRoutes exampleSchema (DELETE "0")) example_store))
      "0".
Proof.
  refine (get_after_delete exampleSchema example_store "0" _).
  vm_compute; reflexivity.
Defined.

(** The scenario of the spec, run on the empty store: create, update the
    title, delete, then look the id up. *)
Example lifecycle :
  let created :=
    run (articleRoutes exampleSchema
           (POST {["title" := JStr "T"; "authorId" := JStr "u1"]}))
        Memory.empty in
  let updated :=
    run (articleRoutes exampleSchema (PUT "0" {["title" := JStr "T2"]}))
        (state created) in
  let deleted := run (articleRoutes exampleSchema (DELETE "0")) (state updated) in
  let looked_up := run (articleRoutes exampleSchema (GET_id "0")) (state deleted) in
  returned created
    = {| status := 200;
         body := Json (ArticleResponse
                         {["id" := JStr "0"; "title" := JStr "T";
                           "authorId" := JStr "u1"]}) |}
  ∧ returned updated
    = {| status := 200;
         body := Json (ArticleResponse
                         {["id" := JStr "0"; "title" := JStr "T2";
                           "authorId" := JStr "u1"]}) |}
  ∧ returned deleted
    = {| status := 200;
         body := Json (MessageResponse "Article deleted successfully") |}
  ∧ returned looked_up = {| status := 404; body := Text "Article not found" |}.
Proof. vm_compute. repeat split. Qed.

(** * Further properties of the routes *)

Section Validator_more.
Implicit Types (schema : v.ObjectSchema) (input output : JsObject).

(** A parse reads the input at the declared keys only. *)
Lemma parse_ext schema input input' :
  (∀ key, key ∈ v.keys schema → input !! key = input' !! key) →
  v.parse schema input = v.parse schema input'.
Proof.
  unfold v.keys. induction schema as [|[k f] rest IH]; intros Hagree; [done|].
  simpl. rewrite IH by (intros key Hkey; apply Hagree; by right).
  rewrite (Hagree k) by by left. done.
Qed.

(** What a schema accepts, its [v.partial] accepts, with the same output. *)
Lemma parse_partial schema input output :
  v.parse schema input = Some output →
  v.parse (v.partial schema) input = Some output.
Proof.
  unfold v.partial. revert output.
  induction schema as [|[k f] rest IH]; intros output Hparse; [done|].
  rewrite fmap_cons. simpl in *.
  destruct (v.parse rest input) as [out|]; [|done].
  rewrite (IH out) by done. simpl in *.
  destruct (input !! k) as [x|]; [done|].
  destruct (v.is_optional f); done.
Qed.

(** [v.partial] accepts the empty object. *)
Lemma parse_partial_empty schema : v.parse (v.partial schema) ∅ = Some ∅.
Proof.
  unfold v.partial. induction schema as [|[k f] rest IH]; [done|].
  rewrite fmap_cons. simpl. rewrite IH. simpl. by rewrite lookup_empty.
Qed.

End Validator_more.

Section Routes_more.
Context {S : Type} `{!ArticleRepository S}.
Variable ArticleSchema : v.ObjectSchema.
Implicit Types (s : S) (i : string) (request : Request) (json data : JsObject).

(** The run of a route whose validator found issues. *)
Lemma rejected_run schema json handler s :
  v.parse schema json = None →
  run (vValidator schema json handler) s =
    {| returned := {| status := 400; body := Json IssuesResponse |};
       state := s; calls := [] |}.
Proof. unfold vValidator. by intros ->. Qed.

Lemma truthy_false A : truthy A = false → A = "".
Proof.
  unfold truthy. intros Hf%bool_decide_eq_false. by destruct (decide (A = "")).
Qed.

(** Case analysis on the run of a route: the request, then what the
    validator and the lookup yield. *)
Ltac route_cases request s :=
  let i := fresh "i" in
  let json := fresh "json" in
  let a := fresh "a" in
  let data := fresh "data" in
  let A := fresh "A" in
  let Hi := fresh "Hi" in
  let Hparse := fresh "Hparse" in
  let HA := fresh "HA" in
  let Ht := fresh "Ht" in
  destruct request as [i|json|json|i json|i]; cbn [articleRoutes];
  [ destruct (findById i s) as [a|] eqn:Hi;
    [ rewrite (getArticle_present s i a Hi)
    | rewrite (getArticle_absent s i Hi) ]
  | destruct (v.parse ArticleQuerySchema json) as [data|] eqn:Hparse;
    [ rewrite (vValidator_valid _ _ _ _ Hparse);
      destruct (valid_query data ≫= authorId) as [A|] eqn:HA;
      [ destruct (truthy A) eqn:Ht;
        [ rewrite (getArticles_filtered s _ A HA Ht)
        | apply truthy_false in Ht; subst A;
          rewrite (getArticles_unfiltered s _ (or_intror HA)) ]
      | rewrite (getArticles_unfiltered s _ (or_introl HA)) ]
    | rewrite (rejected_run _ _ _ s Hparse) ]
  | destruct (v.parse (ArticleWithoutIdSchema ArticleSchema) json)
      as [data|] eqn:Hparse;
    [ rewrite (vValidator_valid _ _ _ _ Hparse), postArticle_run
    | rewrite (rejected_run _ _ _ s Hparse) ]
  | destruct (v.parse (v.partial (ArticleWithoutIdSchema ArticleSchema)) json)
      as [data|] eqn:Hparse;
    [ rewrite (vValidator_valid _ _ _ _ Hparse);
      destruct (findById i s) as [a|] eqn:Hi;
      [ rewrite (putArticle_present s i data a Hi)
      | rewrite (putArticle_absent s i data Hi) ]
    | rewrite (rejected_run _ _ _ s Hparse) ]
  | destruct (findById i s) as [a|] eqn:Hi;
    [ rewrite (deleteArticle_present s i a Hi)
    | rewrite (deleteArticle_absent s i Hi) ] ].

(** X1: a [POST /] or [PUT /:id] whose body has issues is answered 400 by
    the validator: the handler does not run, no repository call is made and
    the state is untouched.  For [PUT] this comes before the lookup, so the
    answer is 400 also when no record has the id. *)
Theorem invalid_body_is_rejected s i json :
  (v.parse (ArticleWithoutIdSchema ArticleSchema) json = None →
   run (articleRoutes ArticleSchema (POST json)) s =
     {| returned := {| status := 400; body := Json IssuesResponse |};
        state := s; calls := [] |})
  ∧ (v.parse (v.partial (ArticleWithoutIdSchema ArticleSchema)) json = None →
     run (articleRoutes ArticleSchema (PUT i json)) s =
       {| returned := {| status := 400; body := Json IssuesResponse |};
          state := s; calls := [] |}).
Proof. split; intros Hparse; cbn [articleRoutes]; by apply rejected_run. Qed.

(** X2: for the three [/:id] routes ([PUT] with a body that passes
    validation), the answer is 200 exactly when [findById] yields a record
    for the id. *)
Theorem id_routes_ok_iff_found s i json data :
  v.parse (v.partial (ArticleWithoutIdSchema ArticleSchema)) json = Some data →
  (status (returned (run (articleRoutes ArticleSchema (GET_id i)) s)) = 200
     ↔ is_Some (findById i s))
  ∧ (status (returned (run (articleRoutes ArticleSchema (PUT i json)) s)) = 200
     ↔ is_Some (findById i s))
  ∧ (status (returned (run (articleRoutes ArticleSchema (DELETE i)) s)) = 200
     ↔ is_Some (findById i s)).
Proof.
  intros Hjson. cbn [articleRoutes]. rewrite (vValidator_valid _ _ data) by done.
  destruct (findById i s) as [a|] eqn:Hi.
  - rewrite (getArticle_present s i a), (putArticle_present s i data a),
      (deleteArticle_present s i a) by done.
    cbn. repeat split; eauto.
  - rewrite getArticle_absent, putArticle_absent, deleteArticle_absent by done.
    cbn. repeat split; (discriminate || by intros [? ?]).
Qed.

(** X3: on an id that [findById] knows, [PUT /:id] answers 200 with the
    record that [update] returned and leaves the state [update] left; the
    record looked up is only an existence check and is not part of the
    answer. *)
Theorem put_relays_update s i json data existing :
  v.parse (v.partial (ArticleWithoutIdSchema ArticleSchema)) json = Some data →
  findById i s = Some existing →
  run (articleRoutes ArticleSchema (PUT i json)) s =
    {| returned := {| status := 200;
                      body := Json (ArticleResponse (update i data s).1) |};
       state := (update i data s).2;
       calls := [called (FindById i); called (Update i data)] |}.
Proof.
  intros Hjson Hi. cbn [articleRoutes].
  rewrite (vValidator_valid _ _ data) by done. by eapply putArticle_present.
Qed.

(** X4: [POST /] with a body that passes validation makes one call,
    [create] with the validated data, and answers 200 with the record it
    returned: there is no lookup and no 404. *)
Theorem post_relays_create s json data :
  v.parse (ArticleWithoutIdSchema ArticleSchema) json = Some data →
  run (articleRoutes ArticleSchema (POST json)) s =
    {| returned := {| status := 200;
                      body := Json (ArticleResponse (create data s).1) |};
       state := (create data s).2;
       calls := [called (Create data)] |}.
Proof.
  intros Hjson. cbn [articleRoutes].
  rewrite (vValidator_valid _ _ data) by done. apply postArticle_run.
Qed.

(** X5: the two [GET] routes never call [create], [update] or [delete],
    whatever the id or the query, and leave the state as it was. *)
Theorem reads_do_not_write s request :
  (∃ i, request = GET_id i) ∨ (∃ query, request = GET query) →
  state (run (articleRoutes ArticleSchema request) s) = s
  ∧ ∀ c, c ∈ calls (run (articleRoutes ArticleSchema request) s) →
         is_write c = false.
Proof.
  intros Hget.
  assert (match request with GET_id _ | GET _ => True | _ => False end) as Hreq.
  { by destruct Hget as [[i ->]|[q ->]]. }
  clear Hget. route_cases request s; try done; cbn;
    (split; [done|]); intros c Hc;
    repeat (apply elem_of_cons in Hc as [->|Hc]; [done|]);
    by apply elem_of_nil in Hc.
Qed.

(** X6: a request makes at most two repository calls; a call that changes
    the repository is the last one; and when there are two, the first is
    the lookup of an id that the repository knows. *)
Theorem at_most_two_calls s request :
  (length (calls (run (articleRoutes ArticleSchema request) s)) ≤ 2)%nat
  ∧ (∀ n c, calls (run (articleRoutes ArticleSchema request) s) !! n = Some c →
            is_write c = true →
            length (calls (run (articleRoutes ArticleSchema request) s))
            = (n + 1)%nat)
  ∧ (length (calls (run (articleRoutes ArticleSchema request) s)) = 2 →
     ∃ i, calls (run (articleRoutes ArticleSchema request) s) !! 0
          = Some (called (FindById i))
          ∧ is_Some (findById i s)).
Proof.
  route_cases request s; cbn;
    (split; [lia|]);
    (split; [intros [|[|n]] c; cbn; intros [= <-]; (done || discriminate)|]);
    (discriminate || (intros _; eexists; split; [done|eauto])).
Qed.



(** X9: [GET /] reads the query at [authorId] only: two queries that agree
    there are handled by the same program, whatever else they carry. *)
Theorem unknown_query_ignored (query query' : JsObject) :
  query !! "authorId" = query' !! "authorId" →
  articleRoutes ArticleSchema (GET query) = articleRoutes ArticleSchema (GET query').
Proof.
  intros Hagree. cbn [articleRoutes]. unfold vValidator.
  rewrite (parse_ext ArticleQuerySchema query query'); [done|].
  intros key Hkey. unfold ArticleQuerySchema, v.keys in Hkey.
  by apply list_elem_of_singleton in Hkey as ->.
Qed.

(** X10: [POST /] and [PUT /:id] read the body at the keys of the article
    shape other than [id]: two bodies that agree there are handled by the
    same program, whatever else they carry. *)
Theorem undeclared_body_fields_ignored json json' :
  (∀ key, key ∈ v.keys ArticleSchema → key ≠ "id" → json !! key = json' !! key) →
  articleRoutes ArticleSchema (POST json) = articleRoutes ArticleSchema (POST json')
  ∧ ∀ i, articleRoutes ArticleSchema (PUT i json)
         = articleRoutes ArticleSchema (PUT i json').
Proof.
  intros Hagree.
  assert (∀ key, key ∈ v.keys (ArticleWithoutIdSchema ArticleSchema) →
                 json !! key = json' !! key) as Hkeys.
  { intros key Hkey. unfold ArticleWithoutIdSchema in Hkey.
    rewrite keys_omit in Hkey. apply list_elem_of_filter in Hkey as [Hid Hkey].
    apply Hagree; [done|]. intros ->. apply Hid. by left. }
  split; [|intros i]; cbn [articleRoutes]; unfold vValidator.
  - by rewrite (parse_ext _ json json').
  - rewrite (parse_ext _ json json'); [done|]. by rewrite keys_partial.
Qed.

(** X11: a body that the create validator accepts is accepted by the update
    validator, with the same validated data. *)
Theorem create_body_is_update_body i json data :
  v.parse (ArticleWithoutIdSchema ArticleSchema) json = Some data →
  articleRoutes ArticleSchema (PUT i json) = putArticle i data.
Proof.
  intros Hjson. cbn [articleRoutes]. apply vValidator_valid.
  by apply parse_partial.
Qed.

(** X12: the empty body [{}] passes the update validator whatever the article
    shape; on an id that [findById] knows, [update] is still called, with no
    field, and its result is the answer. *)
Theorem empty_update_is_forwarded s i existing :
  findById i s = Some existing →
  run (articleRoutes ArticleSchema (PUT i ∅)) s =
    {| returned := {| status := 200;
                      body := Json (ArticleResponse (update i ∅ s).1) |};
       state := (update i ∅ s).2;
       calls := [called (FindById i); called (Update i ∅)] |}.
Proof.
  intros Hi. cbn [articleRoutes].
  rewrite (vValidator_valid _ _ ∅) by apply parse_partial_empty.
  by eapply putArticle_present.
Qed.

(** X13: [GET /] calls [findByAuthorId] with [A] exactly when the query
    gives [authorId] as the non-empty string [A]. *)
Theorem filtered_lookup_iff s (query : JsObject) A :
  called (FindByAuthorId A) ∈ calls (run (articleRoutes ArticleSchema (GET query)) s)
  ↔ query !! "authorId" = Some (JStr A) ∧ A ≠ "".
Proof.
  split.
  - destruct (query !! "authorId") as [x|] eqn:Hq.
    + assert ((∃ a, x = JStr a) ∨ v.parse ArticleQuerySchema query = None)
        as [[a ->]|Hparse].
      { unfold ArticleQuerySchema. simpl. rewrite Hq. destruct x; eauto. }
      * destruct (decide (a = "")) as [->|Hne].
        -- rewrite list_route_unfiltered by (by right). cbn.
           intros Hc%list_elem_of_singleton. by apply (f_equal call_author) in Hc.
        -- rewrite (list_route_filtered _ _ _ a) by done. cbn.
           intros Hc%list_elem_of_singleton. apply (f_equal call_author) in Hc.
           cbn in Hc. by injection Hc as ->.
      * cbn [articleRoutes]. rewrite rejected_run by done.
        cbn. by intros ?%elem_of_nil.
    + rewrite list_route_unfiltered by (by left). cbn.
      intros Hc%list_elem_of_singleton. by apply (f_equal call_author) in Hc.
  - intros [Hq Hne]. rewrite (list_route_filtered _ _ _ A) by done. cbn. by left.
Qed.

End Routes_more.

(** * Further instances on the example store *)

(** X1 at a create body without [authorId] and an update body whose [title]
    is a number, on an id that is not stored. *)
Lemma invalid_body_is_rejected_witness :
  run (articleRoutes exampleSchema (POST {["title" := JStr "T"]})) example_store =
    {| returned := {| status := 400; body := Json IssuesResponse |};
       state := example_store; calls := [] |}
  ∧ run (articleRoutes exampleSchema (PUT "7" {["title" := JNum 3]})) example_store =
    {| returned := {| status := 400; body := Json IssuesResponse |};
       state := example_store; calls := [] |}.
Proof.
  split.
  - refine (proj1 (invalid_body_is_rejected exampleSchema example_store "7"
                     {["title" := JStr "T"]}) _).
    vm_compute; reflexivity.
  - refine (proj2 (invalid_body_is_rejected exampleSchema example_store "7"
                     {["title" := JNum 3]}) _).
    vm_compute; reflexivity.
Defined.

(** X2 at the stored id "0". *)
Lemma id_routes_ok_iff_found_witness :
  (status (returned (run (articleRoutes exampleSchema (GET_id "0")) example_store))
     = 200 ↔ is_Some (findById "0" example_store))
  ∧ (status (returned (run (articleRoutes exampleSchema
                             (PUT "0" {["title" := JStr "T2"]})) example_store))
     = 200 ↔ is_Some (findById "0" example_store))
  ∧ (status (returned (run (articleRoutes exampleSchema (DELETE "0")) example_store))
     = 200 ↔ is_Some (findById "0" example_store)).
Proof.
  refine (id_routes_ok_iff_found exampleSchema example_store "0"
            {["title" := JStr "T2"]} {["title" := JStr "T2"]} _).
  vm_compute; reflexivity.
Defined.

(** X3 at [PUT /0] with body [{title: "T2"}]. *)
Lemma put_relays_update_witness :
  run (articleRoutes exampleSchema (PUT "0" {["title" := JStr "T2"]})) example_store =
    {| returned :=
         {| status := 200;
            body := Json (ArticleResponse
                            (update "0" {["title" := JStr "T2"]} example_store).1) |};
       state := (update "0" {["title" := JStr "T2"]} example_store).2;
       calls := [called (FindById "0");
                 called (Update "0" {["title" := JStr "T2"]})] |}.
Proof.
  refine (put_relays_update exampleSchema example_store "0"
            {["title" := JStr "T2"]} {["title" := JStr "T2"]} example_article _ _);
    vm_compute; reflexivity.
Defined.

(** X4 at a create on the example store. *)
Lemma post_relays_create_witness :
  run (articleRoutes exampleSchema
         (POST {["title" := JStr "U"; "authorId" := JStr "u2"]})) example_store =
    {| returned :=
         {| status := 200;
            body := Json (ArticleResponse
                            (create {["title" := JStr "U"; "authorId" := JStr "u2"]}
                               example_store).1) |};
       state := (create {["title" := JStr "U"; "authorId" := JStr "u2"]}
                   example_store).2;
       calls := [called (Create {["title" := JStr "U"; "authorId" := JStr "u2"]})] |}.
Proof.
  refine (post_relays_create exampleSchema example_store
            {["title" := JStr "U"; "authorId" := JStr "u2"]}
            {["title" := JStr "U"; "authorId" := JStr "u2"]} _).
  vm_compute; reflexivity.
Defined.

(** X5 at [GET /0]. *)
Lemma reads_do_not_write_witness :
  state (run (articleRoutes exampleSchema (GET_id "0")) example_store)
    = example_store
  ∧ ∀ c, c ∈ calls (run (articleRoutes exampleSchema (GET_id "0")) example_store) →
         is_write c = false.
Proof.
  refine (reads_do_not_write exampleSchema example_store (GET_id "0") _).
  left. by exists "0".
Defined.

(** X6 at [PUT /0], which makes two calls. *)
Lemma at_most_two_calls_witness :
  ∃ i, calls (run (articleRoutes exampleSchema
                     (PUT "0" {["title" := JStr "T2"]})) example_store) !! 0
       = Some (called (FindById i))
       ∧ is_Some (findById i example_store).
Proof.
  refine (proj2 (proj2 (at_most_two_calls exampleSchema example_store
                          (PUT "0" {["title" := JStr "T2"]}))) _).
  vm_compute; reflexivity.
Defined.


(** X9 at a query with a [page] besides the [authorId]. *)
Lemma unknown_query_ignored_witness :
  articleRoutes exampleSchema
    (GET {["authorId" := JStr "u1"; "page" := JStr "2"]})
  = articleRoutes exampleSchema (GET {["authorId" := JStr "u1"]}).
Proof.
  refine (unknown_query_ignored exampleSchema
            {["authorId" := JStr "u1"; "page" := JStr "2"]}
            {["authorId" := JStr "u1"]} _).
  vm_compute; reflexivity.
Defined.

(** X10 at a body that carries an [id] and a [draft] flag besides the
    declared fields. *)
Lemma undeclared_body_fields_ignored_witness :
  articleRoutes exampleSchema
    (POST {["id" := JStr "mine"; "draft" := JBool true;
            "title" := JStr "T"; "authorId" := JStr "u1"]})
  = articleRoutes exampleSchema
      (POST {["title" := JStr "T"; "authorId" := JStr "u1"]})
  ∧ ∀ i, articleRoutes exampleSchema
           (PUT i {["id" := JStr "mine"; "draft" := JBool true;
                    "title" := JStr "T"; "authorId" := JStr "u1"]})
         = articleRoutes exampleSchema
             (PUT i {["title" := JStr "T"; "authorId" := JStr "u1"]}).
Proof.
  refine (undeclared_body_fields_ignored exampleSchema
            {["id" := JStr "mine"; "draft" := JBool true;
              "title" := JStr "T"; "authorId" := JStr "u1"]}
            {["title" := JStr "T"; "authorId" := JStr "u1"]} _).
  intros key Hkey Hid. unfold exampleSchema, v.keys in Hkey. cbn in Hkey.
  repeat (apply elem_of_cons in Hkey as [->|Hkey]; [done || reflexivity|]).
  by apply elem_of_nil in Hkey.
Defined.

(** X11 at a full create body sent to [PUT /0]. *)
Lemma create_body_is_update_body_witness :
  articleRoutes exampleSchema
    (PUT "0" {["title" := JStr "T"; "authorId" := JStr "u1"]})
  = putArticle "0" {["title" := JStr "T"; "authorId" := JStr "u1"]}.
Proof.
  refine (create_body_is_update_body exampleSchema "0"
            {["title" := JStr "T"; "authorId" := JStr "u1"]}
            {["title" := JStr "T"; "authorId" := JStr "u1"]} _).
  vm_compute; reflexivity.
Defined.

(** X12 at [PUT /0] with the empty body. *)
Lemma empty_update_is_forwarded_witness :
  run (articleRoutes exampleSchema (PUT "0" ∅)) example_store =
    {| returned := {| status := 200;
                      body := Json (ArticleResponse (update "0" ∅ example_store).1) |};
       state := (update "0" ∅ example_store).2;
       calls := [called (FindById "0"); called (Update "0" ∅)] |}.
Proof.
  refine (empty_update_is_forwarded exampleSchema example_store "0"
            example_article _).
  vm_compute; reflexivity.
Defined.

(** X13 at the query [?authorId=u1]. *)
Lemma filtered_lookup_iff_witness :
  called (FindByAuthorId "u1")
    ∈ calls (run (articleRoutes exampleSchema (GET {["authorId" := JStr "u1"]}))
                 example_store).
Proof.
  refine (proj2 (filtered_lookup_iff exampleSchema example_store
                   {["authorId" := JStr "u1"]} "u1") _).
  split; [reflexivity|done].
Defined.
